(** * SmartBill Connect: the credential store and the auth gateway of [app.py]

    A shallow embedding of the helper functions of [src/app.py]
    ([hash_password], [get_users_from_s3], [save_users_to_s3], [save_user],
    [authenticate]) together with models of the three libraries they rest
    on: [hashlib.sha256], the [json] codec and the S3 client. *)

From Stdlib Require Import ZArith Ascii String List Finite Lia.
From stdpp Require Import base gmap strings list.

Local Open Scope Z_scope.

(** ** hashlib.sha256

    [hashlib.sha256(data).hexdigest()] is modelled by the algorithm of
    FIPS 180-4 on bytes.  A 32-bit word is a [Z] in [0, 2^32); every sum is
    reduced modulo [2^32] explicitly. *)

Module SHA256.

Definition wrap32 (x : Z) : Z := x mod 2 ^ 32.

Definition add32 (x y : Z) : Z := wrap32 (x + y).

Definition rotr (n x : Z) : Z :=
  Z.lor (Z.shiftr x n) (wrap32 (Z.shiftl x (32 - n))).

Definition shr (n x : Z) : Z := Z.shiftr x n.

Definition not32 (x : Z) : Z := Z.lxor x 0xffffffff.

Definition Ch (x y z : Z) : Z := Z.lxor (Z.land x y) (Z.land (not32 x) z).

Definition Maj (x y z : Z) : Z :=
  Z.lxor (Z.lxor (Z.land x y) (Z.land x z)) (Z.land y z).

Definition bsig0 (x : Z) : Z := Z.lxor (Z.lxor (rotr 2 x) (rotr 13 x)) (rotr 22 x).
Definition bsig1 (x : Z) : Z := Z.lxor (Z.lxor (rotr 6 x) (rotr 11 x)) (rotr 25 x).
Definition ssig0 (x : Z) : Z := Z.lxor (Z.lxor (rotr 7 x) (rotr 18 x)) (shr 3 x).
Definition ssig1 (x : Z) : Z := Z.lxor (Z.lxor (rotr 17 x) (rotr 19 x)) (shr 10 x).

(** The constants of the standard are the first 32 bits of the fractional
    parts of the square roots (initial hash value) and of the cube roots
    (round constants) of the first primes.  [int_root k bits n] is the largest
    integer below [2^bits] whose [k]-th power is at most [n], found one bit
    at a time. *)
Definition is_prime (n : Z) : bool :=
  (1 <? n) && forallb (fun d => negb (n mod d =? 0))
                      (map Z.of_nat (seq 2 (Z.to_nat n - 2))).

Definition primes_below (bound : nat) : list Z :=
  filter is_prime (map Z.of_nat (seq 0 bound)).

Fixpoint int_root (k : Z) (bits : nat) (n acc : Z) : Z :=
  match bits with
  | O => acc
  | S bits' =>
      let candidate := Z.lor acc (Z.shiftl 1 (Z.of_nat bits')) in
      if candidate ^ k <=? n then int_root k bits' n candidate
      else int_root k bits' n acc
  end.

Definition root_fraction (k p : Z) : Z :=
  wrap32 (int_root k 40 (p * 2 ^ (32 * k)) 0).

(** The sixty-four round constants (FIPS 180-4, 4.2.2), 0x428a2f98 first. *)
Definition K : list Z :=
  Eval vm_compute in map (root_fraction 3) (firstn 64 (primes_below 312)).

(** The eight working variables, also the intermediate hash value. *)
Record regs : Type := Regs {
  ra : Z; rb : Z; rc : Z; rd : Z; re : Z; rf : Z; rg : Z; rh : Z }.

(** The initial hash value (FIPS 180-4, 5.3.3), 0x6a09e667 first. *)
Definition H0 : regs :=
  Eval vm_compute in
    match map (root_fraction 2) (firstn 8 (primes_below 312)) with
    | [a; b; c; d; e; f; g; h] => Regs a b c d e f g h
    | _ => Regs 0 0 0 0 0 0 0 0
    end.

(** Padding (5.1.1): the byte 0x80, then zero bytes up to 56 modulo 64, then
    the bit length of the message on eight bytes, most significant first. *)
Definition be_bytes (count : nat) (x : Z) : list Z :=
  map (fun i : nat => (Z.shiftr x (8 * Z.of_nat i)) mod 256) (rev (seq 0 count)).

Definition pad (msg : list Z) : list Z :=
  let len := Z.of_nat (length msg) in
  msg ++ [0x80] ++ repeat 0 (Z.to_nat ((55 - len) mod 64))
      ++ be_bytes 8 ((8 * len) mod 2 ^ 64).

(** Four bytes, most significant first, as one word. *)
Definition word_of_bytes (bs : list Z) : Z :=
  fold_left (fun acc b => acc * 256 + b) bs 0.

Fixpoint words (count : nat) (bs : list Z) : list Z :=
  match count with
  | O => []
  | S count' => word_of_bytes (firstn 4 bs) :: words count' (skipn 4 bs)
  end.

Fixpoint blocks (count : nat) (bs : list Z) : list (list Z) :=
  match count with
  | O => []
  | S count' => words 16 (firstn 64 bs) :: blocks count' (skipn 64 bs)
  end.

(** The message schedule (6.2.2, step 1).  [rev_w] holds the words computed
    so far, the latest first, so that [W(t-2)] is its element of index 1. *)
Fixpoint extend (steps : nat) (rev_w : list Z) : list Z :=
  match steps with
  | O => rev_w
  | S steps' =>
      let w i := nth i rev_w 0 in
      let wt := add32 (add32 (add32 (ssig1 (w 1%nat)) (w 6%nat))
                             (ssig0 (w 14%nat))) (w 15%nat) in
      extend steps' (wt :: rev_w)
  end.

Definition schedule (block : list Z) : list Z := rev (extend 48 (rev block)).

(** One round (6.2.2, step 3). *)
Definition round (r : regs) (kw : Z * Z) : regs :=
  let t1 := add32 (add32 (add32 (add32 (rh r) (bsig1 (re r)))
                                (Ch (re r) (rf r) (rg r))) (fst kw)) (snd kw) in
  let t2 := add32 (bsig0 (ra r)) (Maj (ra r) (rb r) (rc r)) in
  Regs (add32 t1 t2) (ra r) (rb r) (rc r) (add32 (rd r) t1) (re r) (rf r) (rg r).

(** One block (6.2.2, steps 2 to 4). *)
Definition compress (h : regs) (block : list Z) : regs :=
  let r := fold_left round (combine K (schedule block)) h in
  Regs (add32 (ra r) (ra h)) (add32 (rb r) (rb h))
       (add32 (rc r) (rc h)) (add32 (rd r) (rd h))
       (add32 (re r) (re h)) (add32 (rf r) (rf h))
       (add32 (rg r) (rg h)) (add32 (rh r) (rh h)).

Definition regs_words (r : regs) : list Z :=
  [ra r; rb r; rc r; rd r; re r; rf r; rg r; rh r].

(** [hashlib.sha256(data).digest()]: thirty-two bytes. *)
Definition digest (msg : list Z) : list Z :=
  let padded := pad msg in
  let h := fold_left compress (blocks (length padded / 64) padded) H0 in
  flat_map (be_bytes 4) (regs_words h).

(** [bytes.hex()]: two lowercase digits for each byte. *)
Definition hex_digit (x : Z) : ascii :=
  nth (Z.to_nat (x mod 16)) (list_ascii_of_string "0123456789abcdef") "0"%char.

Definition hex_of_bytes (bs : list Z) : string :=
  string_of_list_ascii
    (flat_map (fun b => [hex_digit (Z.shiftr b 4); hex_digit (Z.land b 15)]) bs).

Definition hexdigest (msg : list Z) : string := hex_of_bytes (digest msg).

End SHA256.

(** The bytes of a Rocq [string], as numbers. *)
Definition utf8_bytes (s : string) : list Z :=
  map (fun c => Z.of_N (N_of_ascii c)) (list_ascii_of_string s).

(** A lowercase hexadecimal digit: [0-9] or [a-f]. *)
Definition is_lower_hex (c : ascii) : bool :=
  let n := N_of_ascii c in
  ((48 <=? n) && (n <=? 57) || (97 <=? n) && (n <=? 102))%N.

Definition lower_hex_string (s : string) : bool :=
  forallb is_lower_hex (list_ascii_of_string s).

(** All the strings of [n] characters over an alphabet, used to count
    passwords against digests. *)
Fixpoint all_strings (alphabet : list ascii) (n : nat) : list string :=
  match n with
  | O => [EmptyString]
  | S n' => flat_map (fun c => map (String c) (all_strings alphabet n')) alphabet
  end.

Definition hex_alphabet : list ascii := list_ascii_of_string "0123456789abcdef".

Definition bit_alphabet : list ascii := list_ascii_of_string "01".

(** ** Python values and exceptions

    What [json.loads] can return: the JSON fragment of Python's values.  A
    [dict] with [str] keys is a [gmap]; a number is kept as its [repr], which
    the program never inspects. *)

#[local] Unset Elimination Schemes.
Inductive pyval : Type :=
  | PNone
  | PBool (b : bool)
  | PNum (repr : string)
  | PStr (s : string)
  | PList (items : list pyval)
  | PDict (entries : gmap string pyval).
#[local] Set Elimination Schemes.

(** The exception classes the program can meet.  [NoSuchKey] is the one class
    that [get_users_from_s3] names; every class below is a subclass of
    [Exception]. *)
Inductive exn_class : Type :=
  NoSuchKey | StorageError | ValueError | TypeError | KeyError | UnicodeEncodeError.

Record exn : Type := Exn { exn_kind : exn_class; exn_str : string }.

Inductive outcome (A : Type) : Type :=
  | Returns (a : A)
  | Raises (e : exn).
Arguments Returns {A} a.
Arguments Raises {A} e.

Definition is_NoSuchKey (e : exn) : bool :=
  match exn_kind e with NoSuchKey => true | _ => false end.

(** [v == s] for a [str] [s]: a value that is not a [str] is never equal to one. *)
Definition py_eq_str (v : pyval) (s : string) : bool :=
  match v with
  | PStr t => bool_decide (t = s)
  | _ => false
  end.

(** [item in container] for a [str] item. *)
Definition py_contains (container : pyval) (item : string) : outcome bool :=
  match container with
  | PDict d => Returns (bool_decide (is_Some (d !! item)))
  | PList l => Returns (existsb (fun v => py_eq_str v item) l)
  | PStr s =>
      Returns (match String.index 0 item s with Some _ => true | None => false end)
  | PNone | PBool _ | PNum _ =>
      Raises (Exn TypeError "argument is not iterable")
  end.

(** [container[key] = value] for a [str] key. *)
Definition py_setitem (container : pyval) (key : string) (value : pyval) : outcome pyval :=
  match container with
  | PDict d => Returns (PDict (<[key := value]> d))
  | _ => Raises (Exn TypeError "object does not support item assignment")
  end.

(** [container[key]] for a [str] key. *)
Definition py_getitem (container : pyval) (key : string) : outcome pyval :=
  match container with
  | PDict d =>
      match d !! key with
      | Some v => Returns v
      | None => Raises (Exn KeyError key)
      end
  | _ => Raises (Exn TypeError "indices must be integers")
  end.

(** ** Python strings and [hash_password]

    A Python [str] is a sequence of code points, [CodePoints cps].  A [str]
    that has a UTF-8 encoding is also given by the bytes of that encoding,
    [Text s]: this is how usernames, dictionary keys and stored values are
    represented throughout.  A code point in [0xD800, 0xDFFF] (a lone
    surrogate) has no UTF-8 encoding. *)
Inductive pystr : Type :=
  | Text (utf8 : string)
  | CodePoints (code_points : list Z).

Definition utf8_of_code_point (c : Z) : option (list Z) :=
  if c <? 0x80 then Some [c]
  else if c <? 0x800 then
    Some [Z.lor 0xC0 (Z.shiftr c 6); Z.lor 0x80 (Z.land c 0x3F)]
  else if (0xD800 <=? c) && (c <=? 0xDFFF) then None
  else if c <? 0x10000 then
    Some [Z.lor 0xE0 (Z.shiftr c 12);
          Z.lor 0x80 (Z.land (Z.shiftr c 6) 0x3F);
          Z.lor 0x80 (Z.land c 0x3F)]
  else
    Some [Z.lor 0xF0 (Z.shiftr c 18);
          Z.lor 0x80 (Z.land (Z.shiftr c 12) 0x3F);
          Z.lor 0x80 (Z.land (Z.shiftr c 6) 0x3F);
          Z.lor 0x80 (Z.land c 0x3F)].

Fixpoint utf8_of_code_points (cps : list Z) : option (list Z) :=
  match cps with
  | [] => Some []
  | c :: cps' =>
      match utf8_of_code_point c, utf8_of_code_points cps' with
      | Some bs, Some bs' => Some (bs ++ bs')
      | _, _ => None
      end
  end.

(** [str.encode()], UTF-8 being the default: it raises [UnicodeEncodeError]
    on a lone surrogate. *)
Definition encode (s : pystr) : outcome (list Z) :=
  match s with
  | Text utf8 => Returns (utf8_bytes utf8)
  | CodePoints cps =>
      match utf8_of_code_points cps with
      | Some bs => Returns bs
      | None => Raises (Exn UnicodeEncodeError "surrogates not allowed")
      end
  end.

(** [hash_password] (app.py, lines 46-56). *)
Definition hash_password (password : pystr) : outcome string :=
  match encode password with
  | Returns data => Returns (SHA256.hexdigest data)
  | Raises e => Raises e
  end.

(** The digest [hash_password] returns for a password given by its UTF-8
    text. *)
Definition password_digest (password : string) : string :=
  SHA256.hexdigest (utf8_bytes password).

(** A stored value as [save_user] writes it: a [str] of 64 lowercase
    hexadecimal digits. *)
Definition is_digest (v : pyval) : bool :=
  match v with
  | PStr h => (String.length h =? 64)%nat && lower_hex_string h
  | _ => false
  end.

(** The session set-up at the top level of the script (app.py, lines
    144-147).  [st.session_state] is a mapping from names to values;
    [st.session_state.name = v] sets the key [name]. *)
Definition init_session_state (session_state : gmap string pyval) : gmap string pyval :=
  if bool_decide (is_Some (session_state !! "authenticated")) then session_state
  else <["username" := PNone]> (<["authenticated" := PBool false]> session_state).

(** An idealised codec, for concrete instances of the program: a JSON text is
    represented by the value it denotes, and bytes that do not decode or do
    not parse by the message of the [ValueError] they raise. *)
Definition plain_body : Type := (string + pyval)%type.

Definition plain_dumps (v : pyval) : plain_body := inr v.

Definition plain_loads (content : plain_body) : string + pyval := content.

(** ** The program *)

Section App.

(** The bytes of an S3 object.  The program never looks into them except
    through [json.loads], so their type is left open. *)
Variable body : Type.

(** [json.dumps], and [json.loads] after [bytes.decode('utf-8')]; the latter
    answers [inl msg] where Python raises a [ValueError] ([JSONDecodeError] and
    [UnicodeDecodeError] are both subclasses of it) whose text is [msg]. *)
Variable json_dumps : pyval -> body.
Variable json_loads : body -> string + pyval.

(** The contract of the codec: what [json.dumps] writes, [json.loads] reads
    back as the same value. *)
Hypothesis json_loads_dumps : forall v : pyval, json_loads (json_dumps v) = inr v.

(** [S3_USERS_KEY] (app.py, line 40). *)
Definition S3_USERS_KEY : string := "users/credentials.json".

(** The calls the S3 client has received. *)
Inductive s3_call : Type :=
  | GetObject (key : string)
  | PutObject (key : string) (content : body).

(** What the program acts on: the bucket [S3_BUCKET], the calls made to the
    client so far and the notices [st.error] has shown, both oldest first. *)
Record world : Type := World {
  bucket : gmap string body;
  s3_calls : list s3_call;
  notices : list string }.

(** A computation reads and updates the world and returns or raises. *)
Definition M (A : Type) : Type := world -> outcome A * world.

Definition ret {A : Type} (a : A) : M A := fun w => (Returns a, w).

Definition raise {A : Type} (e : exn) : M A := fun w => (Raises e, w).

Definition bind {A B : Type} (m : M A) (k : A -> M B) : M B :=
  fun w =>
    match m w with
    | (Returns a, w') => k a w'
    | (Raises e, w') => (Raises e, w')
    end.

Definition lift {A : Type} (o : outcome A) : M A := fun w => (o, w).

(** [try: m except Exception as e: handler e]. *)
Definition try_except {A : Type} (m : M A) (handler : exn -> M A) : M A :=
  fun w =>
    match m w with
    | (Returns a, w') => (Returns a, w')
    | (Raises e, w') => handler e w'
    end.

Notation "'let*' x ':=' m 'in' k" := (bind m (fun x => k))
  (at level 10, x name, m at level 100, k at level 200).

(** [st.error(msg)]: one more notice on the operator's side channel. *)
Definition st_error (msg : string) : M unit :=
  fun w => (Returns tt, World (bucket w) (s3_calls w) (notices w ++ [msg])).

(** [s3_client.get_object(Bucket=S3_BUCKET, Key=key)], the body already read.
    [net] is the failure, if any, that this call meets on its way (transport,
    credentials, bucket); a call that gets through raises [NoSuchKey] exactly
    when the bucket holds nothing under [key]. *)
Definition get_object (net : option string) (key : string) : M body :=
  fun w =>
    let w' := World (bucket w) (s3_calls w ++ [GetObject key]) (notices w) in
    match net with
    | Some msg => (Raises (Exn StorageError msg), w')
    | None =>
        match bucket w !! key with
        | Some content => (Returns content, w')
        | None => (Raises (Exn NoSuchKey "The specified key does not exist."), w')
        end
    end.

(** [s3_client.put_object(Bucket=S3_BUCKET, Key=key, Body=content)]: a call
    that gets through replaces the object; one that fails leaves it. *)
Definition put_object (net : option string) (key : string) (content : body) : M unit :=
  fun w =>
    let calls := s3_calls w ++ [PutObject key content] in
    match net with
    | Some msg => (Raises (Exn StorageError msg), World (bucket w) calls (notices w))
    | None => (Returns tt, World (<[key := content]> (bucket w)) calls (notices w))
    end.

(** [json.loads(response['Body'].read().decode('utf-8'))]. *)
Definition loads (content : body) : M pyval :=
  match json_loads content with
  | inr v => ret v
  | inl msg => raise (Exn ValueError msg)
  end.

(** [get_users_from_s3] (app.py, lines 62-78). *)
Definition get_users_from_s3 (net : option string) : M pyval :=
  try_except
    (let* response := get_object net S3_USERS_KEY in
     let* users_data := loads response in
     ret users_data)
    (fun e =>
       if is_NoSuchKey e then ret (PDict ∅)
       else
         let* _ := st_error ("Error accessing S3: " ++ exn_str e) in
         ret (PDict ∅)).

(** [save_users_to_s3] (app.py, lines 80-100). *)
Definition save_users_to_s3 (net : option string) (users_data : pyval) : M bool :=
  try_except
    (let users_json := json_dumps users_data in
     let* _ := put_object net S3_USERS_KEY users_json in
     ret true)
    (fun e =>
       let* _ := st_error ("Error saving to S3: " ++ exn_str e) in
       ret false).

(** [save_user] (app.py, lines 106-121).  [net_get] and [net_put] are what the
    two S3 calls meet on their way.  The right-hand side of the assignment,
    [hash_password(password)], is evaluated before the item is set. *)
Definition save_user (net_get net_put : option string)
    (username : string) (password : pystr) : M bool :=
  let* users := get_users_from_s3 net_get in
  let* present := lift (py_contains users username) in
  if negb present then
    let* hashed := lift (hash_password password) in
    let* users := lift (py_setitem users username (PStr hashed)) in
    save_users_to_s3 net_put users
  else ret false.

(** [authenticate] (app.py, lines 123-136).  [and] evaluates its right operand
    only when the left one is true. *)
Definition authenticate (net : option string)
    (username : string) (password : pystr) : M bool :=
  let* users := get_users_from_s3 net in
  let* hashed_password := lift (hash_password password) in
  let* present := lift (py_contains users username) in
  if present then
    let* stored := lift (py_getitem users username) in
    ret (py_eq_str stored hashed_password)
  else ret false.

(** The credential document as the program itself leaves it: absent, or a
    JSON object whose values are all digests. *)
Definition credentials_ok (w : world) : Prop :=
  match bucket w !! S3_USERS_KEY with
  | None => True
  | Some content =>
      exists m : gmap string pyval,
        json_loads content = inr (PDict m)
        /\ map_Forall (fun _ v => is_digest v = true) m
  end.

(** Unfolds the store operations down to the S3 calls. *)
Ltac unfold_store :=
  unfold get_users_from_s3, save_users_to_s3, try_except, bind,
    get_object, put_object, loads, st_error, ret, raise, lift, is_NoSuchKey.

(** ** The digest *)

Lemma hex_digit_is_lower_hex (x : Z) : is_lower_hex (SHA256.hex_digit x) = true.
Proof.
  unfold SHA256.hex_digit.
  assert (Hlt : (Z.to_nat (x mod 16) < 16)%nat).
  { pose proof (Z.mod_pos_bound x 16). lia. }
  destruct (Z.to_nat (x mod 16)) as [|n]; [reflexivity|].
  do 15 (destruct n as [|n]; [reflexivity|]).
  lia.
Qed.

Lemma length_string_of_list_ascii (l : list ascii) :
  String.length (string_of_list_ascii l) = length l.
Proof. induction l as [|c l IH]; simpl; congruence. Qed.

Lemma hex_of_bytes_length (bs : list Z) :
  String.length (SHA256.hex_of_bytes bs) = (2 * length bs)%nat.
Proof.
  unfold SHA256.hex_of_bytes. rewrite length_string_of_list_ascii.
  induction bs as [|b bs IH]; simpl in *; lia.
Qed.

Lemma hex_of_bytes_lower_hex (bs : list Z) :
  lower_hex_string (SHA256.hex_of_bytes bs) = true.
Proof.
  unfold lower_hex_string, SHA256.hex_of_bytes.
  rewrite list_ascii_of_string_of_list_ascii.
  induction bs as [|b bs IH]; [reflexivity|].
  cbn [flat_map app forallb].
  rewrite !hex_digit_is_lower_hex. exact IH.
Qed.

Lemma digest_length (msg : list Z) : length (SHA256.digest msg) = 32%nat.
Proof.
  unfold SHA256.digest.
  generalize (fold_left SHA256.compress
                (SHA256.blocks (length (SHA256.pad msg) / 64) (SHA256.pad msg))
                SHA256.H0).
  intros h. reflexivity.
Qed.

Lemma hexdigest_length (data : list Z) :
  String.length (SHA256.hexdigest data) = 64%nat.
Proof.
  unfold SHA256.hexdigest. rewrite hex_of_bytes_length, digest_length. reflexivity.
Qed.

Lemma hexdigest_lower_hex (data : list Z) :
  lower_hex_string (SHA256.hexdigest data) = true.
Proof. apply hex_of_bytes_lower_hex. Qed.

Lemma password_digest_length (p : string) :
  String.length (password_digest p) = 64%nat.
Proof. apply hexdigest_length. Qed.

Lemma password_digest_lower_hex (p : string) :
  lower_hex_string (password_digest p) = true.
Proof. apply hexdigest_lower_hex. Qed.

(** On a password given by its UTF-8 text, [hash_password] returns. *)
Lemma hash_password_Text (p : string) :
  hash_password (Text p) = Returns (password_digest p).
Proof. reflexivity. Qed.

(** Whatever [hash_password] returns is a digest. *)
Lemma hash_password_returns_digest (p : pystr) (h : string) :
  hash_password p = Returns h ->
  String.length h = 64%nat /\ lower_hex_string h = true.
Proof.
  unfold hash_password. destruct (encode p) as [data|e]; [|discriminate].
  intros [= <-]. split; [apply hexdigest_length|apply hexdigest_lower_hex].
Qed.


(** ** The credential store: [get_users_from_s3] and [save_users_to_s3] *)

Lemma get_users_from_s3_failure (msg : string) (w : world) :
  get_users_from_s3 (Some msg) w
  = (Returns (PDict ∅),
     World (bucket w) (s3_calls w ++ [GetObject S3_USERS_KEY])
           (notices w ++ ["Error accessing S3: " ++ msg]%string)).
Proof. reflexivity. Qed.

Lemma get_users_from_s3_not_found (w : world) :
  bucket w !! S3_USERS_KEY = None ->
  get_users_from_s3 None w
  = (Returns (PDict ∅),
     World (bucket w) (s3_calls w ++ [GetObject S3_USERS_KEY]) (notices w)).
Proof. intros Hnone. unfold_store. rewrite Hnone. reflexivity. Qed.

Lemma get_users_from_s3_found (content : body) (v : pyval) (w : world) :
  bucket w !! S3_USERS_KEY = Some content ->
  json_loads content = inr v ->
  get_users_from_s3 None w
  = (Returns v,
     World (bucket w) (s3_calls w ++ [GetObject S3_USERS_KEY]) (notices w)).
Proof. intros Hsome Hv. unfold_store. rewrite Hsome, Hv. reflexivity. Qed.

Lemma get_users_from_s3_malformed (content : body) (msg : string) (w : world) :
  bucket w !! S3_USERS_KEY = Some content ->
  json_loads content = inl msg ->
  get_users_from_s3 None w
  = (Returns (PDict ∅),
     World (bucket w) (s3_calls w ++ [GetObject S3_USERS_KEY])
           (notices w ++ ["Error accessing S3: " ++ msg]%string)).
Proof. intros Hsome Hv. unfold_store. rewrite Hsome, Hv. reflexivity. Qed.

(** A load always returns, and changes nothing but the log and the notices. *)
Lemma get_users_from_s3_returns (net : option string) (w : world) :
  exists (v : pyval) (ns : list string),
    get_users_from_s3 net w
    = (Returns v, World (bucket w) (s3_calls w ++ [GetObject S3_USERS_KEY]) ns).
Proof.
  destruct net as [msg|].
  - rewrite get_users_from_s3_failure. eauto.
  - destruct (bucket w !! S3_USERS_KEY) as [content|] eqn:Hobj.
    + destruct (json_loads content) as [msg|v] eqn:Hv.
      * erewrite get_users_from_s3_malformed by eassumption. eauto.
      * erewrite get_users_from_s3_found by eassumption. eauto.
    + rewrite get_users_from_s3_not_found by assumption. eauto.
Qed.

(** What a load returns depends on the bucket and on the fate of the call only. *)
Lemma get_users_from_s3_bucket (net : option string) (w1 w2 : world) :
  bucket w1 = bucket w2 ->
  fst (get_users_from_s3 net w1) = fst (get_users_from_s3 net w2).
Proof.
  intros Hb. destruct net as [msg|]; [reflexivity|].
  unfold_store. rewrite Hb.
  destruct (bucket w2 !! S3_USERS_KEY) as [content|]; [|reflexivity].
  destruct (json_loads content); reflexivity.
Qed.

Lemma save_users_to_s3_stored (users_data : pyval) (w : world) :
  save_users_to_s3 None users_data w
  = (Returns true,
     World (<[S3_USERS_KEY := json_dumps users_data]> (bucket w))
           (s3_calls w ++ [PutObject S3_USERS_KEY (json_dumps users_data)])
           (notices w)).
Proof. reflexivity. Qed.

Lemma save_users_to_s3_failure (msg : string) (users_data : pyval) (w : world) :
  save_users_to_s3 (Some msg) users_data w
  = (Returns false,
     World (bucket w)
           (s3_calls w ++ [PutObject S3_USERS_KEY (json_dumps users_data)])
           (notices w ++ ["Error saving to S3: " ++ msg]%string)).
Proof. reflexivity. Qed.

(** ** The auth gateway on a mapping *)

(** [save_user] and [authenticate] after their load. *)
Lemma save_user_after_load (net_get net_put : option string) (u : string)
    (p : pystr) (w w1 : world) (users : pyval) :
  get_users_from_s3 net_get w = (Returns users, w1) ->
  save_user net_get net_put u p w
  = (let* present := lift (py_contains users u) in
     if negb present then
       let* hashed := lift (hash_password p) in
       let* users := lift (py_setitem users u (PStr hashed)) in
       save_users_to_s3 net_put users
     else ret false) w1.
Proof. intros Hload. unfold save_user, bind at 1. rewrite Hload. reflexivity. Qed.

Lemma authenticate_after_load (net : option string) (u : string) (p : pystr)
    (w w1 : world) (users : pyval) :
  get_users_from_s3 net w = (Returns users, w1) ->
  authenticate net u p w
  = (let* hashed_password := lift (hash_password p) in
     let* present := lift (py_contains users u) in
     if present then
       let* stored := lift (py_getitem users u) in
       ret (py_eq_str stored hashed_password)
     else ret false) w1.
Proof. intros Hload. unfold authenticate, bind at 1. rewrite Hload. reflexivity. Qed.

Lemma save_user_absent (net_get net_put : option string) (u : string) (p : pystr)
    (h : string) (w w1 : world) (m : gmap string pyval) :
  get_users_from_s3 net_get w = (Returns (PDict m), w1) ->
  m !! u = None ->
  hash_password p = Returns h ->
  save_user net_get net_put u p w
  = save_users_to_s3 net_put (PDict (<[u := PStr h]> m)) w1.
Proof.
  intros Hload Hu Hh. rewrite (save_user_after_load _ _ _ _ _ _ _ Hload).
  unfold bind, lift. cbn [py_contains]. rewrite Hu, Hh.
  rewrite bool_decide_eq_false_2 by (intros [? ?]; discriminate).
  reflexivity.
Qed.

Lemma save_user_absent_raises (net_get net_put : option string) (u : string)
    (p : pystr) (e : exn) (w w1 : world) (m : gmap string pyval) :
  get_users_from_s3 net_get w = (Returns (PDict m), w1) ->
  m !! u = None ->
  hash_password p = Raises e ->
  save_user net_get net_put u p w = (Raises e, w1).
Proof.
  intros Hload Hu Hh. rewrite (save_user_after_load _ _ _ _ _ _ _ Hload).
  unfold bind, lift. cbn [py_contains]. rewrite Hu, Hh.
  rewrite bool_decide_eq_false_2 by (intros [? ?]; discriminate).
  reflexivity.
Qed.

Lemma save_user_present (net_get net_put : option string) (u : string) (p : pystr)
    (w w1 : world) (m : gmap string pyval) :
  get_users_from_s3 net_get w = (Returns (PDict m), w1) ->
  is_Some (m !! u) ->
  save_user net_get net_put u p w = (Returns false, w1).
Proof.
  intros Hload Hu. rewrite (save_user_after_load _ _ _ _ _ _ _ Hload).
  unfold bind, lift. cbn [py_contains].
  rewrite bool_decide_eq_true_2 by assumption.
  reflexivity.
Qed.

(** What [authenticate] returns, read off what its load returns. *)
Lemma authenticate_fst (net : option string) (u : string) (p : pystr) (w : world) :
  fst (authenticate net u p w)
  = match fst (get_users_from_s3 net w) with
    | Returns users =>
        match hash_password p with
        | Returns hashed_password =>
            match py_contains users u with
            | Returns true =>
                match py_getitem users u with
                | Returns stored => Returns (py_eq_str stored hashed_password)
                | Raises e => Raises e
                end
            | Returns false => Returns false
            | Raises e => Raises e
            end
        | Raises e => Raises e
        end
    | Raises e => Raises e
    end.
Proof.
  unfold authenticate, bind at 1.
  destruct (get_users_from_s3 net w) as [[users|e] w1]; [|reflexivity].
  unfold bind, lift, ret. cbn [fst].
  destruct (hash_password p) as [h|e]; [|reflexivity].
  destruct (py_contains users u) as [[|]|e]; [|reflexivity..].
  destruct (py_getitem users u); reflexivity.
Qed.

Lemma authenticate_of_load (net : option string) (u : string) (p : pystr)
    (w1 w2 : world) :
  fst (get_users_from_s3 net w1) = fst (get_users_from_s3 net w2) ->
  fst (authenticate net u p w1) = fst (authenticate net u p w2).
Proof. intros Hload. rewrite !authenticate_fst, Hload. reflexivity. Qed.

Lemma authenticate_mapping (net : option string) (u : string) (p : pystr)
    (h : string) (w : world) (m : gmap string pyval) :
  fst (get_users_from_s3 net w) = Returns (PDict m) ->
  hash_password p = Returns h ->
  fst (authenticate net u p w)
  = Returns (match m !! u with
             | Some stored => py_eq_str stored h
             | None => false
             end).
Proof.
  intros Hload Hh. rewrite authenticate_fst, Hload, Hh.
  cbn [py_contains py_getitem].
  destruct (m !! u) as [stored|] eqn:Hu.
  - rewrite bool_decide_eq_true_2 by eauto. reflexivity.
  - rewrite bool_decide_eq_false_2 by (intros [? ?]; discriminate). reflexivity.
Qed.

(** [authenticate] reads the store once and writes nothing. *)
Lemma authenticate_world (net : option string) (u : string) (p : pystr) (w : world) :
  exists (o : outcome bool) (ns : list string),
    authenticate net u p w
    = (o, World (bucket w) (s3_calls w ++ [GetObject S3_USERS_KEY]) ns).
Proof.
  destruct (get_users_from_s3_returns net w) as (v & ns & Hget).
  rewrite (authenticate_after_load _ _ _ _ _ _ Hget).
  unfold bind, lift, ret.
  destruct (hash_password p) as [h|e]; [|eauto].
  destruct (py_contains v u) as [[|]|e]; [|eauto..].
  destruct (py_getitem v u); eauto.
Qed.

(** The two ways a [save_user] can go: it only reads, or it found a mapping
    without the user, hashed the password and handed the extended mapping to
    [put_object]. *)
Lemma save_user_cases (net_get net_put : option string) (u : string) (p : pystr)
    (w : world) :
  (bucket (snd (save_user net_get net_put u p w)) = bucket w
   /\ s3_calls (snd (save_user net_get net_put u p w))
      = s3_calls w ++ [GetObject S3_USERS_KEY]
   /\ notices (snd (save_user net_get net_put u p w))
      = notices (snd (get_users_from_s3 net_get w))
   /\ fst (save_user net_get net_put u p w) <> Returns true)
  \/ (exists (m : gmap string pyval) (h : string),
        fst (get_users_from_s3 net_get w) = Returns (PDict m)
        /\ m !! u = None
        /\ hash_password p = Returns h
        /\ s3_calls (snd (save_user net_get net_put u p w))
           = s3_calls w
               ++ [GetObject S3_USERS_KEY;
                   PutObject S3_USERS_KEY (json_dumps (PDict (<[u := PStr h]> m)))]
        /\ (net_put = None
            /\ fst (save_user net_get net_put u p w) = Returns true
            /\ bucket (snd (save_user net_get net_put u p w))
               = <[S3_USERS_KEY := json_dumps (PDict (<[u := PStr h]> m))]> (bucket w)
            \/ net_put <> None
               /\ fst (save_user net_get net_put u p w) = Returns false
               /\ bucket (snd (save_user net_get net_put u p w)) = bucket w)).
Proof.
  destruct (get_users_from_s3_returns net_get w) as (v & ns & Hload).
  pose proof (save_user_after_load net_get net_put u p _ _ _ Hload) as Hrun.
  assert (Hread : forall o : outcome bool,
             o <> Returns true ->
             save_user net_get net_put u p w
             = (o, World (bucket w) (s3_calls w ++ [GetObject S3_USERS_KEY]) ns) ->
             bucket (snd (save_user net_get net_put u p w)) = bucket w
             /\ s3_calls (snd (save_user net_get net_put u p w))
                = s3_calls w ++ [GetObject S3_USERS_KEY]
             /\ notices (snd (save_user net_get net_put u p w))
                = notices (snd (get_users_from_s3 net_get w))
             /\ fst (save_user net_get net_put u p w) <> Returns true).
  { intros o Ho ->. rewrite Hload. auto. }
  destruct v as [| | |s|items|m].
  1-3: left; eapply (Hread (Raises _)); [discriminate|rewrite Hrun; reflexivity].
  { left. unfold bind, lift, ret in Hrun. cbn [py_contains] in Hrun.
    destruct (String.index 0 u s); cbn [negb] in Hrun;
      [|destruct (hash_password p); cbn [py_setitem] in Hrun];
      refine (Hread _ _ Hrun); discriminate. }
  { left. unfold bind, lift, ret in Hrun. cbn [py_contains] in Hrun.
    destruct (existsb _ items); cbn [negb] in Hrun;
      [|destruct (hash_password p); cbn [py_setitem] in Hrun];
      refine (Hread _ _ Hrun); discriminate. }
  clear Hrun.
  destruct (m !! u) as [stored|] eqn:Hu.
  - left. eapply (Hread (Returns false)); [discriminate|].
    eapply save_user_present; [exact Hload|eauto].
  - destruct (hash_password p) as [h|e] eqn:Hh.
    + right. exists m, h. rewrite Hload.
      rewrite (save_user_absent _ net_put _ _ _ _ _ _ Hload Hu Hh).
      split; [reflexivity|]. split; [exact Hu|]. split; [reflexivity|].
      destruct net_put as [msg|].
      * rewrite save_users_to_s3_failure. cbn [fst snd bucket s3_calls].
        rewrite <- app_assoc. split; [reflexivity|]. right. auto.
      * rewrite save_users_to_s3_stored. cbn [fst snd bucket s3_calls].
        rewrite <- app_assoc. split; [reflexivity|]. left. auto.
    + left. eapply (Hread (Raises e)); [discriminate|].
      eapply save_user_absent_raises; eassumption.
Qed.

(** A registration that returns [True] found a mapping without the user,
    hashed the password, got its write through, and left the extended mapping
    in the bucket. *)
Lemma save_user_true_inv (net_get net_put : option string) (u : string) (p : pystr)
    (w w' : world) :
  save_user net_get net_put u p w = (Returns true, w') ->
  exists (m : gmap string pyval) (h : string),
    fst (get_users_from_s3 net_get w) = Returns (PDict m)
    /\ m !! u = None
    /\ hash_password p = Returns h
    /\ net_put = None
    /\ bucket w' = <[S3_USERS_KEY := json_dumps (PDict (<[u := PStr h]> m))]> (bucket w).
Proof.
  intros Hsave.
  destruct (save_user_cases net_get net_put u p w)
    as [(_ & _ & _ & Hne)|(m & h & Hload & Hu & Hh & _ & [(Hput & _ & Hb)|(_ & Hf & _)])].
  - rewrite Hsave in Hne. contradiction.
  - rewrite Hsave in Hb. exists m, h. auto.
  - rewrite Hsave in Hf. discriminate.
Qed.

(** After a registration that returned [True], a login that reads the store
    compares the digest of its password with the digest just stored. *)
Lemma authenticate_after_save_user (net_get net_put : option string) (u : string)
    (p1 p2 : pystr) (h1 h2 : string) (w w' : world) :
  save_user net_get net_put u p1 w = (Returns true, w') ->
  hash_password p1 = Returns h1 ->
  hash_password p2 = Returns h2 ->
  fst (authenticate None u p2 w') = Returns (bool_decide (h1 = h2)).
Proof.
  intros Hsave Hh1 Hh2.
  destruct (save_user_true_inv _ _ _ _ _ _ Hsave) as (m & h & _ & _ & Hh & _ & Hb).
  rewrite Hh1 in Hh. injection Hh as <-.
  erewrite authenticate_mapping; [| |exact Hh2].
  2:{ erewrite get_users_from_s3_found; [reflexivity| |apply json_loads_dumps].
      rewrite Hb. apply lookup_insert_eq. }
  rewrite lookup_insert_eq. reflexivity.
Qed.

(** A login whose load does not get through is refused. *)
Lemma authenticate_load_failure (msg u : string) (p : pystr) (h : string) (w : world) :
  hash_password p = Returns h ->
  fst (authenticate (Some msg) u p w) = Returns false.
Proof.
  intros Hh.
  erewrite authenticate_mapping;
    [|rewrite get_users_from_s3_failure; reflexivity|exact Hh].
  rewrite lookup_empty. reflexivity.
Qed.

(** ** The properties of the specification *)

(** C1. For every username [u] and password [p], if [save_user u p] returns
    [True] (which it does only against a mapping that does not contain [u], see
    [save_user_true_inv], and only when the save succeeded), then
    [authenticate u p], run against the resulting store, returns [True]. *)
Theorem register_then_authenticate (net_get net_put : option string)
    (u : string) (p : pystr) (w w' : world) :
  save_user net_get net_put u p w = (Returns true, w') ->
  fst (authenticate None u p w') = Returns true.
Proof.
  intros Hsave.
  destruct (save_user_true_inv _ _ _ _ _ _ Hsave) as (m & h & _ & _ & Hh & _).
  rewrite (authenticate_after_save_user _ _ _ _ _ _ _ _ _ Hsave Hh Hh).
  rewrite bool_decide_eq_true_2 by reflexivity. reflexivity.
Qed.

(** C2, amended. For every username [u] and passwords [p1] and [p2] whose
    digests differ, after a [save_user u p1] that returned [True],
    [authenticate u p2] returns [False], whether or not its load gets through. *)
Theorem register_then_wrong_password (net_get net_put net : option string)
    (u p1 p2 : string) (w w' : world) :
  save_user net_get net_put u (Text p1) w = (Returns true, w') ->
  password_digest p1 <> password_digest p2 ->
  fst (authenticate net u (Text p2) w') = Returns false.
Proof.
  intros Hsave Hne.
  destruct net as [msg|];
    [apply (authenticate_load_failure _ _ _ _ _ (hash_password_Text p2))|].
  rewrite (authenticate_after_save_user _ _ _ _ _ _ _ _ _ Hsave
             (hash_password_Text p1) (hash_password_Text p2)).
  rewrite bool_decide_eq_false_2 by assumption. reflexivity.
Qed.


(** C4, amended. For every username [u] that is in the stored mapping and
    every password [p], a [save_user u p] whose load gets through returns
    [False], issues no write and leaves the bucket as it was; [authenticate]
    then answers as it did before, and in particular a password whose digest
    is stored for [u] still authenticates. *)
Theorem save_user_duplicate_rejected (net_put : option string)
    (u : string) (p : pystr) (w : world) (content : body)
    (m : gmap string pyval) :
  bucket w !! S3_USERS_KEY = Some content ->
  json_loads content = inr (PDict m) ->
  is_Some (m !! u) ->
  let after := snd (save_user None net_put u p w) in
  fst (save_user None net_put u p w) = Returns false
  /\ bucket after = bucket w
  /\ s3_calls after = s3_calls w ++ [GetObject S3_USERS_KEY]
  /\ (forall (net : option string) (p0 : pystr),
        fst (authenticate net u p0 after) = fst (authenticate net u p0 w))
  /\ (forall p0 : string,
        m !! u = Some (PStr (password_digest p0)) ->
        fst (authenticate None u (Text p0) after) = Returns true).
Proof.
  intros Hdoc Hm Hu after.
  pose proof (get_users_from_s3_found _ _ _ Hdoc Hm) as Hget.
  assert (Hsave : save_user None net_put u p w
                  = (Returns false,
                     World (bucket w) (s3_calls w ++ [GetObject S3_USERS_KEY])
                           (notices w)))
    by (eapply save_user_present; eassumption).
  subst after. rewrite Hsave. cbn [fst snd bucket s3_calls].
  assert (Hsame : forall net : option string,
             fst (get_users_from_s3 net
                    (World (bucket w) (s3_calls w ++ [GetObject S3_USERS_KEY])
                           (notices w)))
             = fst (get_users_from_s3 net w))
    by (intros net; apply get_users_from_s3_bucket; reflexivity).
  repeat split.
  - intros net p0. apply authenticate_of_load, Hsame.
  - intros p0 Hp0.
    erewrite authenticate_mapping;
      [|rewrite Hsame, Hget; reflexivity|apply hash_password_Text].
    rewrite Hp0. cbn [py_eq_str].
    rewrite bool_decide_eq_true_2 by reflexivity. reflexivity.
Qed.



(** C7. When the bucket holds no credential document, so that [get_object]
    raises [NoSuchKey], the load returns the empty mapping and shows no
    notice; and a first [save_user] whose write gets through returns [True]
    and leaves in the bucket the document of the one new user. *)
Theorem empty_store_bootstrap (u p : string) (w : world) :
  bucket w !! S3_USERS_KEY = None ->
  get_users_from_s3 None w
  = (Returns (PDict ∅),
     World (bucket w) (s3_calls w ++ [GetObject S3_USERS_KEY]) (notices w))
  /\ exists w' : world,
       save_user None None u (Text p) w = (Returns true, w')
       /\ bucket w' !! S3_USERS_KEY
          = Some (json_dumps (PDict {[u := PStr (password_digest p)]}))
       /\ fst (get_users_from_s3 None w')
          = Returns (PDict {[u := PStr (password_digest p)]})
       /\ notices w' = notices w.
Proof.
  intros Hnone.
  pose proof (get_users_from_s3_not_found w Hnone) as Hload.
  split; [exact Hload|].
  eexists. split.
  - rewrite (save_user_absent _ None u _ _ _ _ _ Hload (lookup_empty u)
               (hash_password_Text p)).
    rewrite save_users_to_s3_stored. reflexivity.
  - cbn [bucket notices]. rewrite insert_empty.
    split; [apply lookup_insert_eq|].
    split; [|reflexivity].
    erewrite get_users_from_s3_found;
      [reflexivity|apply lookup_insert_eq|apply json_loads_dumps].
Qed.

(** C8. No exception leaves [get_users_from_s3] or [save_users_to_s3], whatever
    the store does.  On a failure other than not-found (a call that does not
    get through, or a document that does not decode or parse) the load
    returns the empty mapping, the very value it returns for a missing
    document, and the save returns [False]; each shows one notice and leaves
    the bucket as it was. *)
Theorem storage_failures_are_swallowed :
  (forall (net : option string) (w : world),
      exists v : pyval, fst (get_users_from_s3 net w) = Returns v)
  /\ (forall (net : option string) (users_data : pyval) (w : world),
        exists b : bool, fst (save_users_to_s3 net users_data w) = Returns b)
  /\ (forall (msg : string) (w : world),
        get_users_from_s3 (Some msg) w
        = (Returns (PDict ∅),
           World (bucket w) (s3_calls w ++ [GetObject S3_USERS_KEY])
                 (notices w ++ ["Error accessing S3: " ++ msg]%string)))
  /\ (forall (content : body) (msg : string) (w : world),
        bucket w !! S3_USERS_KEY = Some content ->
        json_loads content = inl msg ->
        get_users_from_s3 None w
        = (Returns (PDict ∅),
           World (bucket w) (s3_calls w ++ [GetObject S3_USERS_KEY])
                 (notices w ++ ["Error accessing S3: " ++ msg]%string)))
  /\ (forall (msg : string) (users_data : pyval) (w : world),
        save_users_to_s3 (Some msg) users_data w
        = (Returns false,
           World (bucket w)
                 (s3_calls w ++ [PutObject S3_USERS_KEY (json_dumps users_data)])
                 (notices w ++ ["Error saving to S3: " ++ msg]%string)))
  /\ (forall (msg : string) (w w0 : world),
        bucket w0 !! S3_USERS_KEY = None ->
        fst (get_users_from_s3 (Some msg) w) = fst (get_users_from_s3 None w0)).
Proof.
  split.
  { intros net w. destruct (get_users_from_s3_returns net w) as (v & ns & ->).
    eauto. }
  split.
  { intros [msg|] users_data w; eexists; reflexivity. }
  split; [exact get_users_from_s3_failure|].
  split; [exact get_users_from_s3_malformed|].
  split; [exact save_users_to_s3_failure|].
  intros msg w w0 Hnone.
  rewrite get_users_from_s3_failure, get_users_from_s3_not_found by assumption.
  reflexivity.
Qed.

(** C9, amended. The load leaves the bucket as it was, so a second load that
    meets the same fate as the first (both get through, or both fail) returns
    the same value; and any two loads of equal buckets that meet the same
    fate return equal values. *)
Theorem load_idempotent (net : option string) (w : world) :
  bucket (snd (get_users_from_s3 net w)) = bucket w
  /\ fst (get_users_from_s3 net (snd (get_users_from_s3 net w)))
     = fst (get_users_from_s3 net w)
  /\ (forall w2 : world,
        bucket w2 = bucket w ->
        fst (get_users_from_s3 net w2) = fst (get_users_from_s3 net w)).
Proof.
  assert (Hframe : bucket (snd (get_users_from_s3 net w)) = bucket w).
  { destruct (get_users_from_s3_returns net w) as (v & ns & ->). reflexivity. }
  split; [exact Hframe|].
  split; [apply get_users_from_s3_bucket, Hframe|].
  intros w2. apply get_users_from_s3_bucket.
Qed.

(** C10. For every username and password, [authenticate] makes one call to the
    S3 client, a [get_object], and leaves the bucket as it was, whether it
    returns or raises. *)
Theorem authenticate_read_only (net : option string) (u : string) (p : pystr)
    (w : world) :
  bucket (snd (authenticate net u p w)) = bucket w
  /\ s3_calls (snd (authenticate net u p w))
     = s3_calls w ++ [GetObject S3_USERS_KEY].
Proof.
  destruct (authenticate_world net u p w) as (o & ns & ->). split; reflexivity.
Qed.

(** ** Further properties of the store and of the gateway *)

(** A store the program left behind loads as a mapping of digests, whatever
    happens to the call. *)
Lemma credentials_ok_load (net : option string) (w : world) :
  credentials_ok w ->
  exists m : gmap string pyval,
    fst (get_users_from_s3 net w) = Returns (PDict m)
    /\ map_Forall (fun _ v => is_digest v = true) m.
Proof.
  unfold credentials_ok. intros Hok.
  destruct net as [msg|].
  { exists ∅. rewrite get_users_from_s3_failure. split; [reflexivity|].
    apply map_Forall_empty. }
  destruct (bucket w !! S3_USERS_KEY) as [content|] eqn:Hdoc.
  - destruct Hok as (m & Hm & Hall). exists m.
    erewrite get_users_from_s3_found by eassumption. auto.
  - exists ∅. rewrite get_users_from_s3_not_found by assumption.
    split; [reflexivity|]. apply map_Forall_empty.
Qed.

Lemma hash_password_is_digest (p : pystr) (h : string) :
  hash_password p = Returns h -> is_digest (PStr h) = true.
Proof.
  intros Hh. destruct (hash_password_returns_digest _ _ Hh) as [Hlen Hhex].
  cbn [is_digest]. rewrite Hlen, Hhex. reflexivity.
Qed.

(** X1. Whatever value a save that returned [True] was given, the next load
    that gets through returns that value, and shows no notice. *)
Theorem save_then_load (net : option string) (v : pyval) (w w' : world) :
  save_users_to_s3 net v w = (Returns true, w') ->
  get_users_from_s3 None w'
  = (Returns v,
     World (bucket w') (s3_calls w' ++ [GetObject S3_USERS_KEY]) (notices w'))
  /\ notices w' = notices w.
Proof.
  intros Hsave. destruct net as [msg|].
  - rewrite save_users_to_s3_failure in Hsave. discriminate.
  - rewrite save_users_to_s3_stored in Hsave. injection Hsave as <-.
    split; [|reflexivity].
    apply get_users_from_s3_found with (content := json_dumps v).
    + apply lookup_insert_eq.
    + apply json_loads_dumps.
Qed.

(** X2. [save_user] returns [True] exactly when its load returned a mapping
    without the user, the password has a UTF-8 encoding and the write got
    through. *)
Theorem save_user_true_iff (net_get net_put : option string) (u : string)
    (p : pystr) (w : world) :
  fst (save_user net_get net_put u p w) = Returns true
  <-> (exists m : gmap string pyval,
         fst (get_users_from_s3 net_get w) = Returns (PDict m) /\ m !! u = None)
      /\ net_put = None
      /\ exists h : string, hash_password p = Returns h.
Proof.
  split.
  - intros Htrue.
    destruct (save_user net_get net_put u p w) as [o w'] eqn:Hsave.
    cbn [fst] in Htrue. subst o.
    destruct (save_user_true_inv _ _ _ _ _ _ Hsave)
      as (m & h & Hload & Hu & Hh & Hput & _).
    eauto 10.
  - intros ((m & Hload & Hu) & -> & h & Hh).
    destruct (get_users_from_s3_returns net_get w) as (v & ns & Hget).
    rewrite Hget in Hload. cbn [fst] in Hload. injection Hload as ->.
    rewrite (save_user_absent _ None _ _ _ _ _ _ Hget Hu Hh). reflexivity.
Qed.

(** X3. [save_user] calls [get_object] once and [put_object] at most once,
    after it; it writes only when the load returned a mapping without the
    user and the password has a digest, and what it writes is the JSON of
    that mapping with the digest added.  When the load returns anything else
    (the user is there already, or the document is a JSON array, string,
    number or null), or the password does not encode, it writes nothing. *)
Theorem save_user_s3_calls (net_get net_put : option string) (u : string)
    (p : pystr) (w : world) :
  s3_calls (snd (save_user net_get net_put u p w))
  = s3_calls w ++ [GetObject S3_USERS_KEY]
  /\ bucket (snd (save_user net_get net_put u p w)) = bucket w
  \/ exists (m : gmap string pyval) (h : string),
       fst (get_users_from_s3 net_get w) = Returns (PDict m)
       /\ m !! u = None
       /\ hash_password p = Returns h
       /\ s3_calls (snd (save_user net_get net_put u p w))
          = s3_calls w
              ++ [GetObject S3_USERS_KEY;
                  PutObject S3_USERS_KEY (json_dumps (PDict (<[u := PStr h]> m)))].
Proof.
  destruct (save_user_cases net_get net_put u p w)
    as [(Hb & Hc & _)|(m & h & Hload & Hu & Hh & Hc & _)]; [left|right]; eauto 10.
Qed.

(** X4. When the load of [save_user] does not get through and its write
    does, the registration returns [True] and the document becomes the
    mapping of the one new user, whatever it held: a login of any other
    name against the store it leaves is refused. *)
Theorem failed_load_registration_replaces_document (msg u p : string) (w : world) :
  let after := snd (save_user (Some msg) None u (Text p) w) in
  fst (save_user (Some msg) None u (Text p) w) = Returns true
  /\ bucket after
     = <[S3_USERS_KEY := json_dumps (PDict {[u := PStr (password_digest p)]})]>
         (bucket w)
  /\ fst (get_users_from_s3 None after)
     = Returns (PDict {[u := PStr (password_digest p)]})
  /\ forall u0 p0 : string,
       u0 <> u -> fst (authenticate None u0 (Text p0) after) = Returns false.
Proof.
  intros after.
  assert (Hsave : save_user (Some msg) None u (Text p) w
                  = save_users_to_s3 None (PDict (<[u := PStr (password_digest p)]> ∅))
                      (World (bucket w) (s3_calls w ++ [GetObject S3_USERS_KEY])
                             (notices w ++ ["Error accessing S3: " ++ msg]%string))).
  { apply save_user_absent;
      [apply get_users_from_s3_failure|apply lookup_empty|apply hash_password_Text]. }
  subst after. rewrite Hsave, save_users_to_s3_stored, insert_empty.
  cbn [fst snd bucket].
  assert (Hload : forall cs ns,
             fst (get_users_from_s3 None
                    (World (<[S3_USERS_KEY :=
                                json_dumps (PDict {[u := PStr (password_digest p)]})]>
                              (bucket w)) cs ns))
             = Returns (PDict {[u := PStr (password_digest p)]})).
  { intros cs ns. erewrite get_users_from_s3_found;
      [reflexivity|apply lookup_insert_eq|apply json_loads_dumps]. }
  repeat split; [apply Hload|].
  intros u0 p0 Hne.
  rewrite (authenticate_mapping _ _ _ _ _ _ (Hload _ _) (hash_password_Text p0)).
  rewrite lookup_singleton_ne by congruence. reflexivity.
Qed.

(** X5. A document that does not decode or parse is replaced by the first
    registration whose write gets through: [save_user] shows the one notice
    of the load, returns [True] and leaves the mapping of the one new user. *)
Theorem malformed_document_replaced (content : body) (msg u p : string) (w : world) :
  bucket w !! S3_USERS_KEY = Some content ->
  json_loads content = inl msg ->
  save_user None None u (Text p) w
  = (Returns true,
     World (<[S3_USERS_KEY := json_dumps (PDict {[u := PStr (password_digest p)]})]>
              (bucket w))
           (s3_calls w
              ++ [GetObject S3_USERS_KEY;
                  PutObject S3_USERS_KEY
                    (json_dumps (PDict {[u := PStr (password_digest p)]}))])
           (notices w ++ ["Error accessing S3: " ++ msg]%string)).
Proof.
  intros Hdoc Hbad.
  rewrite (save_user_absent None None u _ _ w _ ∅
             (get_users_from_s3_malformed _ _ _ Hdoc Hbad) (lookup_empty u)
             (hash_password_Text p)).
  rewrite save_users_to_s3_stored, insert_empty. cbn [bucket s3_calls notices].
  rewrite <- app_assoc. reflexivity.
Qed.

(** A registration that reads the store leaves the logins of the other names
    as they were. *)
Lemma authenticate_other_after_save_user (net_put : option string)
    (u : string) (p : pystr) (u0 : string) (p0 : pystr) (w : world) :
  u0 <> u ->
  fst (authenticate None u0 p0 (snd (save_user None net_put u p w)))
  = fst (authenticate None u0 p0 w).
Proof.
  intros Hne.
  destruct (save_user_cases None net_put u p w)
    as [(Hb & _)|(m & h & Hload & Hu & _ & _ & [(_ & _ & Hb)|(_ & _ & Hb)])].
  - apply authenticate_of_load, get_users_from_s3_bucket, Hb.
  - rewrite !authenticate_fst, Hload.
    erewrite get_users_from_s3_found; [| |apply json_loads_dumps].
    2:{ rewrite Hb. apply lookup_insert_eq. }
    cbn [fst py_contains py_getitem].
    rewrite lookup_insert_ne by congruence. reflexivity.
  - apply authenticate_of_load, get_users_from_s3_bucket, Hb.
Qed.

(** X6. A registration whose load gets through changes nothing for the other
    users: for every other name and every password, [authenticate] answers
    after it as it did before, whatever the document held and whether or not
    the write got through. *)
Theorem save_user_preserves_other_users (net_put : option string)
    (u : string) (p : pystr) (u0 : string) (p0 : pystr) (w : world) :
  u0 <> u ->
  fst (authenticate None u0 p0 (snd (save_user None net_put u p w)))
  = fst (authenticate None u0 p0 w).
Proof. apply authenticate_other_after_save_user. Qed.

(** X7. Two registrations in a row that both return [True], the second
    reading the store the first one left, are for two different names, and
    afterwards both users authenticate with their own passwords. *)
Theorem two_registrations_both_authenticate (net_get net_put net_put2 : option string)
    (u1 : string) (p1 : pystr) (u2 : string) (p2 : pystr) (w w1 w2 : world) :
  save_user net_get net_put u1 p1 w = (Returns true, w1) ->
  save_user None net_put2 u2 p2 w1 = (Returns true, w2) ->
  u1 <> u2
  /\ fst (authenticate None u1 p1 w2) = Returns true
  /\ fst (authenticate None u2 p2 w2) = Returns true.
Proof.
  intros Hfirst Hsecond.
  destruct (save_user_true_inv _ _ _ _ _ _ Hfirst) as (m1 & h1 & _ & _ & Hh1 & _).
  destruct (save_user_true_inv _ _ _ _ _ _ Hsecond)
    as (m2 & h2 & Hload2 & Hu2 & Hh2 & _).
  pose proof (authenticate_after_save_user _ _ _ _ _ _ _ _ _ Hfirst Hh1 Hh1) as Hauth1.
  rewrite bool_decide_eq_true_2 in Hauth1 by reflexivity.
  pose proof (authenticate_after_save_user _ _ _ _ _ _ _ _ _ Hsecond Hh2 Hh2) as Hauth2.
  rewrite bool_decide_eq_true_2 in Hauth2 by reflexivity.
  assert (Hne : u1 <> u2).
  { intros ->.
    rewrite (authenticate_mapping _ _ _ _ _ _ Hload2 Hh1), Hu2 in Hauth1.
    discriminate. }
  split; [exact Hne|]. split; [|exact Hauth2].
  rewrite <- Hauth1.
  replace w2 with (snd (save_user None net_put2 u2 p2 w1)) by (rewrite Hsecond; reflexivity).
  apply authenticate_other_after_save_user. exact Hne.
Qed.

(** X8. [authenticate] returns [True] exactly when its load got through, the
    document parsed to a JSON object, the password has a UTF-8 encoding, and
    the value stored under the name is the string of the password's digest.
    A load that fails, a document that does not parse or is not an object,
    and a stored value that is not a string never authenticate anyone. *)
Theorem authenticate_true_iff (net : option string) (u : string) (p : pystr)
    (w : world) :
  fst (authenticate net u p w) = Returns true
  <-> net = None
      /\ exists (content : body) (m : gmap string pyval) (h : string),
           bucket w !! S3_USERS_KEY = Some content
           /\ json_loads content = inr (PDict m)
           /\ hash_password p = Returns h
           /\ m !! u = Some (PStr h).
Proof.
  split.
  - intros Htrue. rewrite authenticate_fst in Htrue.
    destruct net as [msg|].
    { rewrite get_users_from_s3_failure in Htrue. cbn [fst py_contains] in Htrue.
      destruct (hash_password p); [|discriminate].
      rewrite lookup_empty in Htrue.
      rewrite bool_decide_eq_false_2 in Htrue by (intros [? ?]; discriminate).
      discriminate. }
    split; [reflexivity|].
    destruct (bucket w !! S3_USERS_KEY) as [content|] eqn:Hdoc.
    2:{ rewrite get_users_from_s3_not_found in Htrue by assumption.
        cbn [fst py_contains] in Htrue.
        destruct (hash_password p); [|discriminate].
        rewrite lookup_empty in Htrue.
        rewrite bool_decide_eq_false_2 in Htrue by (intros [? ?]; discriminate).
        discriminate. }
    destruct (json_loads content) as [msg|v] eqn:Hv.
    { erewrite get_users_from_s3_malformed in Htrue by eassumption.
      cbn [fst py_contains] in Htrue.
      destruct (hash_password p); [|discriminate].
      rewrite lookup_empty in Htrue.
      rewrite bool_decide_eq_false_2 in Htrue by (intros [? ?]; discriminate).
      discriminate. }
    erewrite get_users_from_s3_found in Htrue by eassumption.
    cbn [fst] in Htrue. exists content.
    destruct (hash_password p) as [h|e] eqn:Hh; [|discriminate].
    destruct v as [| | |s|items|m]; cbn [py_contains py_getitem] in Htrue;
      try discriminate.
    + destruct (String.index 0 u s); discriminate.
    + destruct (existsb _ items); discriminate.
    + exists m, h. split; [reflexivity|]. split; [exact Hv|].
      split; [reflexivity|].
      destruct (m !! u) as [stored|].
      * rewrite bool_decide_eq_true_2 in Htrue by eauto.
        destruct stored; cbn [py_eq_str] in Htrue; try discriminate.
        injection Htrue as Heq. apply bool_decide_eq_true_1 in Heq. congruence.
      * rewrite bool_decide_eq_false_2 in Htrue by (intros [? ?]; discriminate).
        discriminate.
  - intros (-> & content & m & h & Hdoc & Hv & Hh & Hu).
    erewrite authenticate_mapping;
      [|erewrite get_users_from_s3_found by eassumption; reflexivity|exact Hh].
    rewrite Hu. cbn [py_eq_str].
    rewrite bool_decide_eq_true_2 by reflexivity. reflexivity.
Qed.

(** X9. The shape of the document is an invariant of the program: if the
    document is absent or is a JSON object whose values are all 64-digit
    lowercase hexadecimal strings, it still is after any [save_user] and any
    [authenticate], whatever happens to their S3 calls. *)
Theorem credentials_ok_preserved (net_get net_put : option string) (u : string)
    (p : pystr) (w : world) :
  credentials_ok w ->
  credentials_ok (snd (save_user net_get net_put u p w))
  /\ credentials_ok (snd (authenticate net_get u p w)).
Proof.
  intros Hok. split.
  - destruct (save_user_cases net_get net_put u p w)
      as [(Hb & _)|(m & h & Hload & Hu & Hh & _ & [(_ & _ & Hb)|(_ & _ & Hb)])].
    + unfold credentials_ok in *. rewrite Hb. exact Hok.
    + unfold credentials_ok at 1. rewrite Hb, lookup_insert_eq.
      eexists. split; [apply json_loads_dumps|].
      apply map_Forall_insert_2; [exact (hash_password_is_digest _ _ Hh)|].
      destruct (credentials_ok_load net_get w Hok) as (m' & Hload' & Hall).
      rewrite Hload in Hload'. injection Hload' as ->. exact Hall.
    + unfold credentials_ok in *. rewrite Hb. exact Hok.
  - destruct (authenticate_world net_get u p w) as (o & ns & ->).
    unfold credentials_ok in *. exact Hok.
Qed.


(** X11. On a document of that shape, a registration and a login whose S3
    calls all get through show no notice. *)
Theorem healthy_calls_show_no_notice (u : string) (p : pystr) (w : world) :
  credentials_ok w ->
  notices (snd (save_user None None u p w)) = notices w
  /\ notices (snd (authenticate None u p w)) = notices w.
Proof.
  intros Hok.
  assert (Hload : exists m : gmap string pyval,
             get_users_from_s3 None w
             = (Returns (PDict m),
                World (bucket w) (s3_calls w ++ [GetObject S3_USERS_KEY]) (notices w))).
  { unfold credentials_ok in Hok.
    destruct (bucket w !! S3_USERS_KEY) as [content|] eqn:Hdoc.
    - destruct Hok as (m & Hm & _). exists m.
      eapply get_users_from_s3_found; eassumption.
    - exists ∅. apply get_users_from_s3_not_found. exact Hdoc. }
  destruct Hload as (m & Hload). split.
  - destruct (m !! u) as [stored|] eqn:Hu.
    + erewrite save_user_present by eauto. reflexivity.
    + destruct (hash_password p) as [h|e] eqn:Hh.
      * erewrite save_user_absent by eauto. reflexivity.
      * erewrite save_user_absent_raises by eauto. reflexivity.
  - rewrite (authenticate_after_load _ _ _ _ _ _ Hload).
    unfold bind, lift, ret. destruct (hash_password p); [|reflexivity].
    cbn [py_contains py_getitem].
    destruct (m !! u) as [stored|].
    + rewrite bool_decide_eq_true_2 by eauto. reflexivity.
    + rewrite bool_decide_eq_false_2 by (intros [? ?]; discriminate). reflexivity.
Qed.


End App.

Arguments World {body} bucket s3_calls notices.
Arguments bucket {body} w.
Arguments s3_calls {body} w.
Arguments notices {body} w.
Arguments GetObject {body} key.
Arguments PutObject {body} key content.
Arguments get_users_from_s3 {body} json_loads net w.
Arguments save_users_to_s3 {body} json_dumps net users_data w.
Arguments save_user {body} json_dumps json_loads net_get net_put username password w.
Arguments authenticate {body} json_loads net username password w.
Arguments credentials_ok {body} json_loads w.

(** ** Counting passwords against digests

    There are more strings of 257 characters over ["01"] than strings of 64
    hexadecimal digits, so the digest of a password cannot be injective. *)

Lemma flat_map_length_constant {A B : Type} (f : A -> list B) (l : list A) (n : nat) :
  (forall a : A, length (f a) = n) -> length (flat_map f l) = (length l * n)%nat.
Proof.
  intros Hf. induction l as [|a l IH]; [reflexivity|].
  cbn [flat_map length]. rewrite length_app, Hf, IH. reflexivity.
Qed.

Lemma all_strings_length (alphabet : list ascii) (n : nat) :
  length (all_strings alphabet n) = (length alphabet ^ n)%nat.
Proof.
  induction n as [|n IH]; [reflexivity|].
  cbn [all_strings].
  rewrite (flat_map_length_constant _ _ (length alphabet ^ n)%nat).
  - rewrite Nat.pow_succ_r'. reflexivity.
  - intros c. rewrite length_map. exact IH.
Qed.

Lemma all_strings_complete (alphabet : list ascii) (s : string) :
  List.Forall (fun c => In c alphabet) (list_ascii_of_string s) ->
  In s (all_strings alphabet (String.length s)).
Proof.
  induction s as [|c s IH]; intros Hall.
  - left. reflexivity.
  - cbn [list_ascii_of_string] in Hall. inversion Hall as [|? ? Hc Hs]; subst.
    cbn [String.length all_strings]. apply in_flat_map.
    exists c. split; [exact Hc|]. apply in_map, IH, Hs.
Qed.

Lemma all_strings_NoDup (alphabet : list ascii) (n : nat) :
  List.NoDup alphabet -> List.NoDup (all_strings alphabet n).
Proof.
  intros Halpha. induction n as [|n IH].
  - repeat constructor. intros Hin. inversion Hin.
  - cbn [all_strings]. generalize dependent (all_strings alphabet n).
    intros tails Htails. clear n.
    induction Halpha as [|c rest Hc Hrest IHrest]; [constructor|].
    cbn [flat_map]. apply List.NoDup_app.
    + apply Injective_map_NoDup; [|exact Htails].
      intros s1 s2 Heq. congruence.
    + exact IHrest.
    + intros s Hs1 Hs2.
      apply in_map_iff in Hs1 as (t1 & <- & _).
      apply in_flat_map in Hs2 as (c2 & Hc2 & Hs2).
      apply in_map_iff in Hs2 as (t2 & Heq & _).
      injection Heq as -> _. contradiction.
Qed.

Lemma is_lower_hex_alphabet (c : ascii) :
  is_lower_hex c = true -> In c hex_alphabet.
Proof.
  destruct c as [[] [] [] [] [] [] [] []]; cbv; intros H;
    try discriminate H; tauto.
Qed.

Lemma password_digest_in_digests (p : string) :
  In (password_digest p) (all_strings hex_alphabet 64).
Proof.
  rewrite <- (password_digest_length p). apply all_strings_complete.
  pose proof (password_digest_lower_hex p) as Hhex.
  unfold lower_hex_string in Hhex. rewrite forallb_forall in Hhex.
  apply List.Forall_forall. intros c Hc. apply is_lower_hex_alphabet, Hhex, Hc.
Qed.

(** Two different passwords with the same digest exist. *)
Lemma password_digest_not_injective :
  ~ (forall p1 p2 : string, password_digest p1 = password_digest p2 -> p1 = p2).
Proof.
  intros Hinj.
  assert (Hdom : List.NoDup (map password_digest (all_strings bit_alphabet 257))).
  { apply Injective_map_NoDup; [exact Hinj|].
    apply all_strings_NoDup. repeat constructor; cbn; intuition discriminate. }
  assert (Hle : (length (map password_digest (all_strings bit_alphabet 257))
                 <= length (all_strings hex_alphabet 64))%nat).
  { apply NoDup_incl_length; [exact Hdom|].
    intros h Hh. apply in_map_iff in Hh as (p & <- & _).
    apply password_digest_in_digests. }
  rewrite length_map, !all_strings_length in Hle.
  change (length bit_alphabet) with 2%nat in Hle.
  change (length hex_alphabet) with (2 ^ 4)%nat in Hle.
  rewrite <- Nat.pow_mul_r in Hle.
  apply Nat.pow_le_mono_r_iff in Hle; [|lia].
  change (4 * 64)%nat with 256%nat in Hle. lia.
Qed.

(** ** The program on concrete stores *)

Lemma plain_loads_dumps (v : pyval) : plain_loads (plain_dumps v) = inr v.
Proof. reflexivity. Qed.

(** The test vectors of FIPS 180-4, and the passwords of the specification. *)
Example sha_abc :
  hash_password (Text "abc")
  = Returns "ba7816bf8f01cfea414140de5dae2223b00361a396177a9cb410ff61f20015ad"%string.
Proof. vm_compute. reflexivity. Qed.

Example sha_empty :
  hash_password (Text "")
  = Returns "e3b0c44298fc1c149afbf4c8996fb92427ae41e4649b934ca495991b7852b855"%string.
Proof. vm_compute. reflexivity. Qed.

Example sha_two_blocks :
  hash_password (Text "abcdbcdecdefdefgefghfghighijhijkijkljklmklmnlmnomnopnopq")
  = Returns "248d6a61d20638b8e5c026930c3e6039a33ce45964ff2167f6ecedd419db06c1"%string.
Proof. vm_compute. reflexivity. Qed.

Example password_digests_differ : password_digest "pw1" <> password_digest "pw2".
Proof. vm_compute. discriminate. Qed.

(** Registering alice in an empty bucket, then logging in. *)
Lemma register_then_authenticate_witness :
  save_user plain_dumps plain_loads None None "alice" (Text "pw1") (World ∅ [] [])
  = (Returns true,
     snd (save_user plain_dumps plain_loads None None "alice" (Text "pw1")
            (World ∅ [] [])))
  /\ fst (authenticate plain_loads None "alice" (Text "pw1")
            (snd (save_user plain_dumps plain_loads None None "alice" (Text "pw1")
                    (World ∅ [] []))))
     = Returns true.
Proof.
  assert (Hsave :
    save_user plain_dumps plain_loads None None "alice" (Text "pw1") (World ∅ [] [])
    = (Returns true,
       snd (save_user plain_dumps plain_loads None None "alice" (Text "pw1")
              (World ∅ [] []))))
    by (vm_compute; reflexivity).
  split; [exact Hsave|].
  exact (register_then_authenticate plain_body plain_dumps plain_loads
           plain_loads_dumps None None "alice" (Text "pw1") _ _ Hsave).
Defined.

(** C2 as stated fails: were every password other than the registered one
    refused, the digest of a password would be injective. *)
Lemma wrong_password_claim_fails :
  ~ (forall (u p1 p2 : string) (w w' : world plain_body) (m : gmap string pyval),
       p1 <> p2 ->
       fst (get_users_from_s3 plain_loads None w) = Returns (PDict m) ->
       m !! u = None ->
       save_user plain_dumps plain_loads None None u (Text p1) w = (Returns true, w') ->
       fst (authenticate plain_loads None u (Text p2) w') = Returns false).
Proof.
  intros Hclaim. apply password_digest_not_injective. intros p1 p2 Heq.
  destruct (decide (p1 = p2)) as [|Hne]; [assumption|exfalso].
  assert (Hsave :
    save_user plain_dumps plain_loads None None "alice" (Text p1) (World ∅ [] [])
    = (Returns true,
       World (<[S3_USERS_KEY :=
                  plain_dumps (PDict (<["alice" := PStr (password_digest p1)]> ∅))]> ∅)
             [GetObject S3_USERS_KEY;
              PutObject S3_USERS_KEY
                (plain_dumps (PDict (<["alice" := PStr (password_digest p1)]> ∅)))]
             []))
    by reflexivity.
  assert (Hload :
    fst (get_users_from_s3 plain_loads None (World ∅ [] [])) = Returns (PDict ∅))
    by reflexivity.
  specialize (Hclaim "alice"%string p1 p2 _ _ ∅ Hne Hload (lookup_empty _) Hsave).
  rewrite (authenticate_after_save_user plain_body plain_dumps plain_loads
             plain_loads_dumps _ _ _ _ _ _ _ _ _ Hsave
             (hash_password_Text p1) (hash_password_Text p2)) in Hclaim.
  rewrite bool_decide_eq_true_2 in Hclaim by assumption. discriminate.
Qed.

(** Registering alice with pw1, then trying pw2. *)
Lemma register_then_wrong_password_witness :
  save_user plain_dumps plain_loads None None "alice" (Text "pw1") (World ∅ [] [])
  = (Returns true,
     snd (save_user plain_dumps plain_loads None None "alice" (Text "pw1")
            (World ∅ [] [])))
  /\ password_digest "pw1" <> password_digest "pw2"
  /\ fst (authenticate plain_loads None "alice" (Text "pw2")
            (snd (save_user plain_dumps plain_loads None None "alice" (Text "pw1")
                    (World ∅ [] []))))
     = Returns false.
Proof.
  assert (Hsave :
    save_user plain_dumps plain_loads None None "alice" (Text "pw1") (World ∅ [] [])
    = (Returns true,
       snd (save_user plain_dumps plain_loads None None "alice" (Text "pw1")
              (World ∅ [] []))))
    by (vm_compute; reflexivity).
  assert (Hne : password_digest "pw1" <> password_digest "pw2")
    by (vm_compute; discriminate).
  split; [exact Hsave|]. split; [exact Hne|].
  exact (register_then_wrong_password plain_body plain_dumps plain_loads
           plain_loads_dumps None None None "alice" "pw1" "pw2" _ _ Hsave Hne).
Defined.


(** C4 as stated fails: alice is in the stored mapping and pw1 authenticates
    her; a registration of alice whose load fails and whose write gets
    through returns [True] and replaces the document, and pw1 no longer
    authenticates. *)
Lemma duplicate_registration_claim_fails :
  fst (authenticate plain_loads None "alice" (Text "pw1")
         (World {[S3_USERS_KEY := plain_dumps (PDict {["alice" := PStr (password_digest "pw1")]})]}
                [] []))
  = Returns true
  /\ fst (save_user plain_dumps plain_loads (Some "timeout") None "alice" (Text "pw3")
            (World {[S3_USERS_KEY := plain_dumps (PDict {["alice" := PStr (password_digest "pw1")]})]}
                   [] []))
     = Returns true
  /\ bucket (snd (save_user plain_dumps plain_loads (Some "timeout") None "alice" (Text "pw3")
                    (World {[S3_USERS_KEY := plain_dumps (PDict {["alice" := PStr (password_digest "pw1")]})]}
                           [] [])))
       !! S3_USERS_KEY
     = Some (plain_dumps (PDict {["alice" := PStr (password_digest "pw3")]}))
  /\ fst (authenticate plain_loads None "alice" (Text "pw1")
            (snd (save_user plain_dumps plain_loads (Some "timeout") None "alice" (Text "pw3")
                    (World {[S3_USERS_KEY := plain_dumps (PDict {["alice" := PStr (password_digest "pw1")]})]}
                           [] []))))
     = Returns false.
Proof. repeat split; vm_compute; reflexivity. Qed.

(** alice is registered with pw1; a second registration with pw3, its load
    getting through, is refused. *)
Lemma save_user_duplicate_rejected_witness :
  ({[S3_USERS_KEY := plain_dumps (PDict {["alice" := PStr (password_digest "pw1")]})]}
     : gmap string plain_body) !! S3_USERS_KEY
  = Some (plain_dumps (PDict {["alice" := PStr (password_digest "pw1")]}))
  /\ plain_loads (plain_dumps (PDict {["alice" := PStr (password_digest "pw1")]}))
     = inr (PDict {["alice" := PStr (password_digest "pw1")]})
  /\ is_Some (({["alice" := PStr (password_digest "pw1")]} : gmap string pyval) !! "alice")
  /\ fst (save_user plain_dumps plain_loads None None "alice" (Text "pw3")
            (World {[S3_USERS_KEY := plain_dumps (PDict {["alice" := PStr (password_digest "pw1")]})]}
                   [] []))
     = Returns false
  /\ bucket (snd (save_user plain_dumps plain_loads None None "alice" (Text "pw3")
                    (World {[S3_USERS_KEY := plain_dumps (PDict {["alice" := PStr (password_digest "pw1")]})]}
                           [] [])))
     = {[S3_USERS_KEY := plain_dumps (PDict {["alice" := PStr (password_digest "pw1")]})]}
  /\ fst (authenticate plain_loads None "alice" (Text "pw1")
            (snd (save_user plain_dumps plain_loads None None "alice" (Text "pw3")
                    (World {[S3_USERS_KEY := plain_dumps (PDict {["alice" := PStr (password_digest "pw1")]})]}
                           [] []))))
     = Returns true.
Proof.
  assert (Hdoc :
    ({[S3_USERS_KEY := plain_dumps (PDict {["alice" := PStr (password_digest "pw1")]})]}
       : gmap string plain_body) !! S3_USERS_KEY
    = Some (plain_dumps (PDict {["alice" := PStr (password_digest "pw1")]})))
    by apply lookup_singleton_eq.
  assert (Hparse :
    plain_loads (plain_dumps (PDict {["alice" := PStr (password_digest "pw1")]}))
    = inr (PDict {["alice" := PStr (password_digest "pw1")]}))
    by reflexivity.
  assert (Halice :
    ({["alice" := PStr (password_digest "pw1")]} : gmap string pyval) !! "alice"
    = Some (PStr (password_digest "pw1")))
    by apply lookup_singleton_eq.
  assert (Hsome :
    is_Some (({["alice" := PStr (password_digest "pw1")]} : gmap string pyval) !! "alice"))
    by (rewrite Halice; eexists; reflexivity).
  split; [exact Hdoc|]. split; [exact Hparse|]. split; [exact Hsome|].
  destruct (save_user_duplicate_rejected plain_body plain_dumps plain_loads
              None "alice" (Text "pw3")
              (World {[S3_USERS_KEY := plain_dumps (PDict {["alice" := PStr (password_digest "pw1")]})]}
                     [] [])
              _ _ Hdoc Hparse Hsome)
    as (Hfalse & Hbucket & _ & _ & Hstill).
  split; [exact Hfalse|]. split; [exact Hbucket|].
  exact (Hstill "pw1"%string Halice).
Defined.



(** An empty bucket: the load returns the empty mapping and the first
    registration creates the document. *)
Lemma empty_store_bootstrap_witness :
  (∅ : gmap string plain_body) !! S3_USERS_KEY = None
  /\ get_users_from_s3 plain_loads None (World ∅ [] [])
     = (Returns (PDict ∅), World ∅ [GetObject S3_USERS_KEY] [])
  /\ exists w' : world plain_body,
       save_user plain_dumps plain_loads None None "alice" (Text "pw1") (World ∅ [] [])
       = (Returns true, w')
       /\ bucket w' !! S3_USERS_KEY
          = Some (plain_dumps (PDict {["alice" := PStr (password_digest "pw1")]})).
Proof.
  assert (Hnone : (∅ : gmap string plain_body) !! S3_USERS_KEY = None)
    by reflexivity.
  split; [exact Hnone|].
  destruct (empty_store_bootstrap plain_body plain_dumps plain_loads
              plain_loads_dumps "alice" "pw1" (World ∅ [] []) Hnone)
    as (Hload & w' & Hsave & Hdoc & _).
  split; [exact Hload|]. exists w'. split; [exact Hsave | exact Hdoc].
Defined.

(** A store that cannot be reached and a document that does not parse: the
    load returns the empty mapping, the save returns [False]. *)
Lemma storage_failures_are_swallowed_witness :
  get_users_from_s3 plain_loads (Some "Could not connect") (World ∅ [] [])
  = (Returns (PDict ∅),
     World ∅ [GetObject S3_USERS_KEY] ["Error accessing S3: Could not connect"%string])
  /\ get_users_from_s3 plain_loads None
       (World {[S3_USERS_KEY := inl "Expecting value"%string]} [] [])
     = (Returns (PDict ∅),
        World {[S3_USERS_KEY := inl "Expecting value"%string]}
              [GetObject S3_USERS_KEY] ["Error accessing S3: Expecting value"%string])
  /\ save_users_to_s3 plain_dumps (Some "Access Denied") (PDict ∅) (World ∅ [] [])
     = (Returns false,
        World ∅ [PutObject S3_USERS_KEY (plain_dumps (PDict ∅))]
              ["Error saving to S3: Access Denied"%string]).
Proof.
  destruct (storage_failures_are_swallowed plain_body plain_dumps plain_loads)
    as (_ & _ & Hget & Hbad & Hput & _).
  split; [exact (Hget "Could not connect"%string (World ∅ [] []))|].
  split; [|exact (Hput "Access Denied"%string (PDict ∅) (World ∅ [] []))].
  exact (Hbad (inl "Expecting value"%string) "Expecting value"%string
           (World {[S3_USERS_KEY := inl "Expecting value"%string]} [] [])
           (lookup_singleton_eq _ _) eq_refl).
Defined.

(** C9 as stated fails: the bucket holds the document of alice and nothing
    is saved; a load that does not get through returns the empty mapping and
    leaves the bucket as it was, and the next load, which gets through,
    returns the mapping of alice. *)
Lemma load_claim_fails_across_a_failure :
  bucket (snd (get_users_from_s3 plain_loads (Some "timeout")
                 (World {[S3_USERS_KEY := plain_dumps (PDict {["alice" := PStr (password_digest "pw1")]})]}
                        [] [])))
  = {[S3_USERS_KEY := plain_dumps (PDict {["alice" := PStr (password_digest "pw1")]})]}
  /\ fst (get_users_from_s3 plain_loads (Some "timeout")
            (World {[S3_USERS_KEY := plain_dumps (PDict {["alice" := PStr (password_digest "pw1")]})]}
                   [] []))
     = Returns (PDict ∅)
  /\ fst (get_users_from_s3 plain_loads None
            (snd (get_users_from_s3 plain_loads (Some "timeout")
                    (World {[S3_USERS_KEY := plain_dumps (PDict {["alice" := PStr (password_digest "pw1")]})]}
                           [] []))))
     = Returns (PDict {["alice" := PStr (password_digest "pw1")]})
  /\ fst (get_users_from_s3 plain_loads None
            (snd (get_users_from_s3 plain_loads (Some "timeout")
                    (World {[S3_USERS_KEY := plain_dumps (PDict {["alice" := PStr (password_digest "pw1")]})]}
                           [] []))))
     <> fst (get_users_from_s3 plain_loads (Some "timeout")
               (World {[S3_USERS_KEY := plain_dumps (PDict {["alice" := PStr (password_digest "pw1")]})]}
                      [] [])).
Proof.
  split; [reflexivity|]. split; [reflexivity|].
  split; [vm_compute; reflexivity|].
  intros Heq. vm_compute in Heq. discriminate Heq.
Qed.

(** What the program does when the load fails and the write then gets
    through: the document is replaced by the mapping of the one new user,
    whatever it held. *)
Lemma save_user_after_failed_load :
  save_user plain_dumps plain_loads (Some "timeout") None "bob" (Text "pw9")
    (World {[S3_USERS_KEY := plain_dumps (PDict {["alice" := PStr (password_digest "pw1")]})]}
           [] [])
  = (Returns true,
     World {[S3_USERS_KEY := plain_dumps (PDict {["bob" := PStr (password_digest "pw9")]})]}
           [GetObject S3_USERS_KEY;
            PutObject S3_USERS_KEY
              (plain_dumps (PDict {["bob" := PStr (password_digest "pw9")]}))]
           ["Error accessing S3: timeout"%string]).
Proof. vm_compute. reflexivity. Qed.

(** A document that is a JSON array is loaded as it is; a login with a name
    the array holds then raises the [TypeError] of [users[username]]. *)
Example authenticate_array_document :
  fst (authenticate plain_loads None "alice" (Text "pw1")
         (World {[S3_USERS_KEY := plain_dumps (PList [PStr "alice"])]} [] []))
  = Raises (Exn TypeError "indices must be integers").
Proof. vm_compute. reflexivity. Qed.

(** ** The session set-up *)

(** X12. The script runs from the top on every interaction.  Its session
    set-up always leaves the key [authenticated] defined and running it again
    changes nothing, so a session that is logged in stays logged in; it never
    touches a key other than [authenticated] and [username]; and in a session
    without [authenticated] it sets [authenticated] to [False] and [username]
    to [None], whatever [username] held. *)
Theorem init_session_state_rerun (session_state : gmap string pyval) :
  init_session_state (init_session_state session_state)
  = init_session_state session_state
  /\ is_Some (init_session_state session_state !! "authenticated")
  /\ (is_Some (session_state !! "authenticated") ->
      init_session_state session_state = session_state)
  /\ (forall k : string,
        k <> "authenticated"%string -> k <> "username"%string ->
        init_session_state session_state !! k = session_state !! k)
  /\ (session_state !! "authenticated" = None ->
      init_session_state session_state !! "authenticated" = Some (PBool false)
      /\ init_session_state session_state !! "username" = Some PNone).
Proof.
  assert (Hfresh :
    is_Some ((<["username" := PNone]> (<["authenticated" := PBool false]> session_state)
                : gmap string pyval) !! "authenticated")).
  { rewrite lookup_insert_ne by discriminate. rewrite lookup_insert_eq. eauto. }
  unfold init_session_state.
  destruct (bool_decide (is_Some (session_state !! "authenticated"))) eqn:Hset.
  - apply bool_decide_eq_true_1 in Hset.
    rewrite (bool_decide_eq_true_2 _ Hset).
    split; [reflexivity|]. split; [exact Hset|].
    split; [reflexivity|]. split; [reflexivity|].
    intros Hnone. rewrite Hnone in Hset. destruct Hset as [? ?]. discriminate.
  - apply bool_decide_eq_false_1 in Hset.
    rewrite (bool_decide_eq_true_2 _ Hfresh).
    split; [reflexivity|]. split; [exact Hfresh|].
    split; [intros Hsome; contradiction|].
    split.
    + intros k Hk1 Hk2. rewrite !lookup_insert_ne by congruence. reflexivity.
    + intros _. split.
      * rewrite lookup_insert_ne by discriminate. apply lookup_insert_eq.
      * apply lookup_insert_eq.
Qed.

(** Saving a mapping, then loading it. *)
Lemma save_then_load_witness :
  save_users_to_s3 plain_dumps None (PDict {["alice" := PStr "x"]}) (World ∅ [] [])
  = (Returns true,
     snd (save_users_to_s3 plain_dumps None (PDict {["alice" := PStr "x"]})
            (World ∅ [] [])))
  /\ fst (get_users_from_s3 plain_loads None
            (snd (save_users_to_s3 plain_dumps None (PDict {["alice" := PStr "x"]})
                    (World ∅ [] []))))
     = Returns (PDict {["alice" := PStr "x"]}).
Proof.
  assert (Hsave :
    save_users_to_s3 plain_dumps None (PDict {["alice" := PStr "x"]}) (World ∅ [] [])
    = (Returns true,
       snd (save_users_to_s3 plain_dumps None (PDict {["alice" := PStr "x"]})
              (World ∅ [] []))))
    by (vm_compute; reflexivity).
  split; [exact Hsave|].
  rewrite (proj1 (save_then_load plain_body plain_dumps plain_loads plain_loads_dumps
                    None _ _ _ Hsave)).
  reflexivity.
Defined.

(** alice is registered; bob registers while the load fails: alice is gone. *)
Lemma failed_load_registration_replaces_document_witness :
  fst (authenticate plain_loads None "alice" (Text "pw1")
         (World {[S3_USERS_KEY := plain_dumps (PDict {["alice" := PStr (password_digest "pw1")]})]}
                [] []))
  = Returns true
  /\ fst (authenticate plain_loads None "alice" (Text "pw1")
            (snd (save_user plain_dumps plain_loads (Some "timeout") None "bob" (Text "pw9")
                    (World {[S3_USERS_KEY := plain_dumps (PDict {["alice" := PStr (password_digest "pw1")]})]}
                           [] []))))
     = Returns false.
Proof.
  split; [vm_compute; reflexivity|].
  apply (failed_load_registration_replaces_document plain_body plain_dumps plain_loads
           plain_loads_dumps "timeout" "bob" "pw9").
  discriminate.
Defined.

(** A document that does not parse, then a registration. *)
Lemma malformed_document_replaced_witness :
  ({[S3_USERS_KEY := inl "Expecting value"%string]} : gmap string plain_body)
    !! S3_USERS_KEY = Some (inl "Expecting value"%string)
  /\ plain_loads (inl "Expecting value"%string) = inl "Expecting value"%string
  /\ fst (save_user plain_dumps plain_loads None None "alice" (Text "pw1")
            (World {[S3_USERS_KEY := inl "Expecting value"%string]} [] []))
     = Returns true.
Proof.
  assert (Hdoc :
    ({[S3_USERS_KEY := inl "Expecting value"%string]} : gmap string plain_body)
      !! S3_USERS_KEY = Some (inl "Expecting value"%string))
    by (vm_compute; reflexivity).
  assert (Hbad : plain_loads (inl "Expecting value"%string)
                 = inl "Expecting value"%string) by reflexivity.
  split; [exact Hdoc|]. split; [exact Hbad|].
  rewrite (malformed_document_replaced plain_body plain_dumps plain_loads _ _
             "alice" "pw1"
             (World {[S3_USERS_KEY := inl "Expecting value"%string]} [] [])
             Hdoc Hbad).
  reflexivity.
Defined.

(** bob registers; alice logs in as before. *)
Lemma save_user_preserves_other_users_witness :
  "alice"%string <> "bob"%string
  /\ fst (authenticate plain_loads None "alice" (Text "pw1")
            (snd (save_user plain_dumps plain_loads None None "bob" (Text "pw9")
                    (World {[S3_USERS_KEY := plain_dumps (PDict {["alice" := PStr (password_digest "pw1")]})]}
                           [] []))))
     = fst (authenticate plain_loads None "alice" (Text "pw1")
              (World {[S3_USERS_KEY := plain_dumps (PDict {["alice" := PStr (password_digest "pw1")]})]}
                     [] [])).
Proof.
  assert (Hne : "alice"%string <> "bob"%string) by discriminate.
  split; [exact Hne|].
  exact (save_user_preserves_other_users plain_body plain_dumps plain_loads
           plain_loads_dumps None "bob" (Text "pw9") "alice" (Text "pw1") _ Hne).
Defined.

(** alice, then bob. *)
Lemma two_registrations_both_authenticate_witness :
  fst (authenticate plain_loads None "alice" (Text "pw1")
         (snd (save_user plain_dumps plain_loads None None "bob" (Text "pw9")
                 (snd (save_user plain_dumps plain_loads None None "alice" (Text "pw1")
                         (World ∅ [] []))))))
  = Returns true
  /\ fst (authenticate plain_loads None "bob" (Text "pw9")
            (snd (save_user plain_dumps plain_loads None None "bob" (Text "pw9")
                    (snd (save_user plain_dumps plain_loads None None "alice" (Text "pw1")
                            (World ∅ [] []))))))
     = Returns true.
Proof.
  assert (Hfirst :
    save_user plain_dumps plain_loads None None "alice" (Text "pw1") (World ∅ [] [])
    = (Returns true,
       snd (save_user plain_dumps plain_loads None None "alice" (Text "pw1")
              (World ∅ [] []))))
    by (vm_compute; reflexivity).
  assert (Hsecond :
    save_user plain_dumps plain_loads None None "bob" (Text "pw9")
      (snd (save_user plain_dumps plain_loads None None "alice" (Text "pw1")
              (World ∅ [] [])))
    = (Returns true,
       snd (save_user plain_dumps plain_loads None None "bob" (Text "pw9")
              (snd (save_user plain_dumps plain_loads None None "alice" (Text "pw1")
                      (World ∅ [] []))))))
    by (vm_compute; reflexivity).
  exact (proj2 (two_registrations_both_authenticate plain_body plain_dumps plain_loads
                  plain_loads_dumps None None None "alice" (Text "pw1") "bob"
                  (Text "pw9") _ _ _ Hfirst Hsecond)).
Defined.

Lemma alice_document_ok :
  credentials_ok plain_loads
    (World {[S3_USERS_KEY := plain_dumps (PDict {["alice" := PStr (password_digest "pw1")]})]}
           [] []).
Proof.
  unfold credentials_ok. cbn [bucket]. rewrite lookup_singleton_eq.
  eexists. split; [reflexivity|].
  apply map_Forall_singleton.
  exact (hash_password_is_digest _ _ (hash_password_Text "pw1")).
Qed.

(** The document of alice keeps its shape when bob registers. *)
Lemma credentials_ok_preserved_witness :
  credentials_ok plain_loads
    (World {[S3_USERS_KEY := plain_dumps (PDict {["alice" := PStr (password_digest "pw1")]})]}
           [] [])
  /\ credentials_ok plain_loads
       (snd (save_user plain_dumps plain_loads None None "bob" (Text "pw9")
               (World {[S3_USERS_KEY := plain_dumps (PDict {["alice" := PStr (password_digest "pw1")]})]}
                      [] []))).
Proof.
  split; [exact alice_document_ok|].
  exact (proj1 (credentials_ok_preserved plain_body plain_dumps plain_loads
                  plain_loads_dumps None None "bob" (Text "pw9") _ alice_document_ok)).
Defined.


(** On the document of alice, a login shows no notice. *)
Lemma healthy_calls_show_no_notice_witness :
  credentials_ok plain_loads
    (World {[S3_USERS_KEY := plain_dumps (PDict {["alice" := PStr (password_digest "pw1")]})]}
           [] ["earlier notice"%string])
  /\ notices (snd (authenticate plain_loads None "alice" (Text "pw1")
                     (World {[S3_USERS_KEY := plain_dumps (PDict {["alice" := PStr (password_digest "pw1")]})]}
                            [] ["earlier notice"%string])))
     = ["earlier notice"%string].
Proof.
  assert (Hok :
    credentials_ok plain_loads
      (World {[S3_USERS_KEY := plain_dumps (PDict {["alice" := PStr (password_digest "pw1")]})]}
             [] ["earlier notice"%string])).
  { unfold credentials_ok. cbn [bucket]. rewrite lookup_singleton_eq.
    eexists. split; [reflexivity|].
    apply map_Forall_singleton. vm_compute. reflexivity. }
  split; [exact Hok|].
  exact (proj2 (healthy_calls_show_no_notice plain_body plain_dumps plain_loads
                  "alice" (Text "pw1") _ Hok)).
Defined.
